(** * Verification of [ui_comparison.py]

    The dashboard script of "Local_LLM vs Cloud_Based_LLM": the prompt
    builder, the two model adapters, the static score tables and the
    "Try Models" tab, embedded as Rocq definitions and checked against the
    properties stated for them.

    Python floats are IEEE-754 binary64 numbers; they are modelled by Rocq's
    primitive floats, which are binary64 as well, so that a decimal literal
    of the script and the same literal here denote the same number. *)

From Stdlib Require Import List String Ascii ZArith Bool Lia PrimFloat.
Import ListNotations.

Set Warnings "-inexact-float,-register-all".

Local Open Scope string_scope.

(* ===================================================================== *)
(** ** Static score tables *)
(* ===================================================================== *)

Module Tables.

(** A [pd.DataFrame] built from a dict of equally long columns. *)
Record DataFrame : Type := mkDataFrame {
  Metric : list string;
  GPT4 : list float;
  TinyLlama : list float;
  Difference : list float
}.

Definition metric_names : list string :=
  ["Correctness"; "Mathematical Reasoning"; "Solution Completeness";
   "Explanation Quality"; "Coherence"; "Time Efficiency"; "Final Score"].

Definition abstract_algebra_data : DataFrame := {|
  Metric := metric_names;
  GPT4 := [0.83; 0.40; 0.425; 0.65; 0.675; 0.90; 0.71]%float;
  TinyLlama := [0.00; 0.10; 0.00; 0.10; 0.00; 0.30; 0.05]%float;
  Difference := [0.83; 0.30; 0.425; 0.55; 0.675; 0.60; 0.66]%float
|}.

Definition college_math_data : DataFrame := {|
  Metric := metric_names;
  GPT4 := [0.85; 0.70; 0.45; 0.50; 0.45; 0.85; 0.74]%float;
  TinyLlama := [0.35; 0.05; 0.05; 0.10; 0.05; 0.70; 0.18]%float;
  Difference := [0.50; 0.65; 0.40; 0.40; 0.40; 0.15; 0.56]%float
|}.

Definition elementary_math_data : DataFrame := {|
  Metric := metric_names;
  GPT4 := [0.80; 0.55; 0.35; 0.40; 0.30; 0.90; 0.59]%float;
  TinyLlama := [0.30; 0.05; 0.02; 0.05; 0.02; 0.65; 0.19]%float;
  Difference := [0.50; 0.50; 0.33; 0.35; 0.28; 0.25; 0.40]%float
|}.

Definition high_school_math_data : DataFrame := {|
  Metric := metric_names;
  GPT4 := [0.85; 0.75; 0.40; 0.45; 0.35; 0.85; 0.76]%float;
  TinyLlama := [0.40; 0.10; 0.05; 0.08; 0.05; 0.65; 0.26]%float;
  Difference := [0.45; 0.65; 0.35; 0.37; 0.30; 0.20; 0.50]%float
|}.

Definition overall_metrics : DataFrame := {|
  Metric := metric_names;
  GPT4 := [0.833; 0.628; 0.388; 0.449; 0.363; 0.880; 0.684]%float;
  TinyLlama := [0.317; 0.047; 0.029; 0.055; 0.032; 0.658; 0.183]%float;
  Difference := [0.517; 0.581; 0.360; 0.393; 0.331; 0.222; 0.501]%float
|}.

Definition subject_tables : list DataFrame :=
  [abstract_algebra_data; college_math_data;
   elementary_math_data; high_school_math_data].

Definition static_tables : list DataFrame :=
  subject_tables ++ [overall_metrics].

(** One row of a frame: the entries of the four columns at one index. *)
Record Row : Type := mkRow {
  row_metric : string;
  row_gpt4 : float;
  row_tinyllama : float;
  row_difference : float
}.

Fixpoint zip_rows (ms : list string) (gs ts ds : list float) : list Row :=
  match ms, gs, ts, ds with
  | m :: ms', g :: gs', t :: ts', d :: ds' =>
      mkRow m g t d :: zip_rows ms' gs' ts' ds'
  | _, _, _, _ => []
  end.

Definition rows (df : DataFrame) : list Row :=
  zip_rows (Metric df) (GPT4 df) (TinyLlama df) (Difference df).

(** [|Difference - (GPT4 - TinyLlama)|], computed in binary64. *)
Definition deviation (r : Row) : float :=
  abs (row_difference r - (row_gpt4 r - row_tinyllama r))%float.

Definition tolerance : float := 1e-6%float.

Definition difference_consistent (r : Row) : bool :=
  (deviation r <=? tolerance)%float.

Definition table_consistent (df : DataFrame) : bool :=
  forallb difference_consistent (rows df).

(** The deviation is one unit of the third decimal, up to the tolerance. *)
Definition off_by_one_thousandth (r : Row) : bool :=
  (abs (deviation r - 0.001) <=? tolerance)%float.

Definition row_named (df : DataFrame) (name : string) : option Row :=
  find (fun r => String.eqb (row_metric r) name) (rows df).

End Tables.

(* ===================================================================== *)
(** ** Python values, exceptions and the objects of the two SDKs *)
(* ===================================================================== *)

Module Py.

(** The dynamically typed values the script passes around. *)
Inductive pyval : Type :=
| VNone
| VBool (b : bool)
| VInt (z : Z)
| VFloat (f : float)
| VStr (s : string)
| VList (items : list pyval)
| VDict (items : list (string * pyval)).

(** Keyword arguments of a call, and a dict literal, in source order. *)
Definition kwargs : Type := list (string * pyval).

(** An instance of (a subclass of) [Exception], the class named by the
    [except Exception as e] clauses of the script. *)
Record PyException : Type := mkException {
  exc_class : string;
  exc_str : string
}.

(** [str(e)] *)
Definition str (e : PyException) : string := exc_str e.

(** [bool(s)] for a [str]: every non-empty string is true. *)
Definition truthy (s : string) : bool :=
  match s with
  | EmptyString => false
  | String _ _ => true
  end.

(** [needle in hay] for two [str] values. *)
Fixpoint contains (hay needle : string) : bool :=
  String.prefix needle hay
  || match hay with
     | EmptyString => false
     | String _ hay' => contains hay' needle
     end.

(** [str.isspace] on one character: the ASCII whitespace characters
    space, TAB, LF, VT, FF, CR and the separators FS, GS, RS, US. *)
Definition isspace_ascii (c : ascii) : bool :=
  let n := nat_of_ascii c in
  Nat.eqb n 32 || (Nat.leb 9 n && Nat.leb n 13)
  || (Nat.leb 28 n && Nat.leb n 31).

Fixpoint all_whitespace (s : string) : bool :=
  match s with
  | EmptyString => true
  | String c s' => isspace_ascii c && all_whitespace s'
  end.

(** The configured cloud client, [AzureOpenAI(azure_endpoint=...,
    api_key=..., api_version=...)]; [os.getenv] yields [None] for an unset
    variable. *)
Record AzureOpenAI : Type := mkAzureOpenAI {
  azure_endpoint : option string;
  api_key : option string;
  api_version : option string
}.

(** The part of a chat completion the script reads:
    [response.choices[0].message.content]. *)
Record ChatCompletionMessage : Type := mkMessage {
  content : option string
}.

Record Choice : Type := mkChoice {
  message : ChatCompletionMessage
}.

Record ChatCompletion : Type := mkChatCompletion {
  choices : list Choice
}.

(** The mapping returned by [ollama.generate]. *)
Definition GenerateResponse : Type := list (string * pyval).

Definition of_optional_str (o : option string) : pyval :=
  match o with
  | Some s => VStr s
  | None => VNone
  end.

Fixpoint dict_get (d : list (string * pyval)) (key : string) : option pyval :=
  match d with
  | [] => None
  | (k, v) :: d' => if String.eqb k key then Some v else dict_get d' key
  end.

Definition is_bool (v : pyval) : bool :=
  match v with
  | VBool _ => true
  | _ => false
  end.

(** A 2-tuple, as both [return] statements of each adapter build one. *)
Definition tuple_items (t : pyval * pyval) : list pyval := [fst t; snd t].

End Py.

Import Py.

(* ===================================================================== *)
(** ** Effects: the calls that leave the script *)
(* ===================================================================== *)

Module Effects.

(** An f-string is kept as its parts: literal text and formatted fields
    ([{time_taken:.2f}] is [FField time_taken ".2f"]). *)
Inductive fpart : Type :=
| FLit (s : string)
| FField (v : pyval) (spec : string).

Inductive MdBody : Type :=
| MdVal (v : pyval)
| MdFString (parts : list fpart).

(** The objects used in [with] statements. *)
Inductive ContextManager : Type :=
| Spinner (text : string)
| Column (index : nat).

(** The external calls of the script, indexed by the type of their answer.
    A transport call answers with its return value or with the exception it
    raises. *)
Inductive Event : Type -> Type :=
| time_time : Event float
| chat_completions_create (client : AzureOpenAI) (args : kwargs)
    : Event (PyException + ChatCompletion)
| ollama_generate (args : kwargs) : Event (PyException + GenerateResponse)
| st_header (body : string) : Event unit
| st_markdown (body : MdBody) : Event unit
| st_text_area (label : string) (height : Z) : Event string
| st_button (label : string) : Event bool
| st_columns (spec : Z) : Event unit
| st_warning (body : string) : Event unit
| cm_enter (cm : ContextManager) : Event unit
| cm_exit (cm : ContextManager) : Event unit.

(** A program: it returns, raises, or performs a call and continues with
    the answer. *)
Inductive Prog (R : Type) : Type :=
| Ret (r : R)
| Raise (e : PyException)
| Vis (A : Type) (ev : Event A) (k : A -> Prog R).

Arguments Ret {R} r.
Arguments Raise {R} e.
Arguments Vis {R A} ev k.

Fixpoint bind {A B : Type} (p : Prog A) (f : A -> Prog B) : Prog B :=
  match p with
  | Ret a => f a
  | Raise e => Raise e
  | Vis ev k => Vis ev (fun x => bind (k x) f)
  end.

Definition trigger {A : Type} (ev : Event A) : Prog A := Vis ev Ret.

(** A call that may raise: the exception answered by the callee is raised
    in the caller. *)
Definition call {A : Type} (ev : Event (PyException + A)) : Prog A :=
  Vis ev (fun r => match r with
                   | inl e => Raise e
                   | inr a => Ret a
                   end).

(** [try: body  except Exception as e: handler e] *)
Fixpoint try_except {R : Type} (body : Prog R)
    (handler : PyException -> Prog R) : Prog R :=
  match body with
  | Ret r => Ret r
  | Raise e => handler e
  | Vis ev k => Vis ev (fun x => try_except (k x) handler)
  end.

(** [try: body  finally: fin] *)
Fixpoint try_finally {R : Type} (body : Prog R) (fin : Prog unit) : Prog R :=
  match body with
  | Ret r => bind fin (fun _ => Ret r)
  | Raise e => bind fin (fun _ => Raise e)
  | Vis ev k => Vis ev (fun x => try_finally (k x) fin)
  end.

(** [with cm: body] *)
Definition with_ {R : Type} (cm : ContextManager) (body : Prog R) : Prog R :=
  bind (trigger (cm_enter cm))
       (fun _ => try_finally body (trigger (cm_exit cm))).

(** [l[i]] on a list *)
Definition list_getitem {A : Type} (l : list A) (i : nat) : Prog A :=
  match nth_error l i with
  | Some x => Ret x
  | None => Raise (mkException "IndexError" "list index out of range")
  end.

(** [d[key]] on a mapping with string keys *)
Definition dict_getitem (d : list (string * pyval)) (key : string)
    : Prog pyval :=
  match dict_get d key with
  | Some v => Ret v
  | None => Raise (mkException "KeyError" ("'" ++ key ++ "'"))
  end.

(** One performed call together with its answer. *)
Inductive Entry : Type :=
| Log (A : Type) (ev : Event A) (ans : A).

Arguments Log {A} ev ans.

Definition Trace : Type := list Entry.

(** The requests sent to the two model endpoints. *)
Inductive Request : Type :=
| CloudRequest (client : AzureOpenAI) (args : kwargs)
| LocalRequest (args : kwargs).

Definition request_of (en : Entry) : option Request :=
  match en with
  | Log ev _ =>
      match ev with
      | chat_completions_create client args => Some (CloudRequest client args)
      | ollama_generate args => Some (LocalRequest args)
      | _ => None
      end
  end.

Fixpoint requests (tr : Trace) : list Request :=
  match tr with
  | [] => []
  | en :: tr' =>
      match request_of en with
      | Some r => r :: requests tr'
      | None => requests tr'
      end
  end.

(** The bodies handed to [st.markdown], in order. *)
Fixpoint markdowns (tr : Trace) : list MdBody :=
  match tr with
  | [] => []
  | Log ev _ :: tr' =>
      match ev with
      | st_markdown body => body :: markdowns tr'
      | _ => markdowns tr'
      end
  end.

(** The bodies handed to [st.warning], in order. *)
Fixpoint warnings (tr : Trace) : list string :=
  match tr with
  | [] => []
  | Log ev _ :: tr' =>
      match ev with
      | st_warning body => body :: warnings tr'
      | _ => warnings tr'
      end
  end.

Section Run.

(** The environment: a state of the outside world and the answer it gives
    to each call. *)
Variable W : Type.
Variable handle : forall A : Type, Event A -> W -> A * W.

(** Running a program: the calls it performed with their answers, the
    final state of the world, and the raised exception or the result. *)
Fixpoint run {R : Type} (p : Prog R) (w : W)
    : Trace * W * (PyException + R) :=
  match p with
  | Ret r => ([], w, inr r)
  | Raise e => ([], w, inl e)
  | Vis ev k =>
      let (a, w1) := handle _ ev w in
      let '(tr, w2, res) := run (k a) w1 in
      (Log ev a :: tr, w2, res)
  end.

(** [steps w tr w']: the world answers the calls of [tr] one after the
    other, starting in [w] and ending in [w']. *)
Inductive steps : W -> Trace -> W -> Prop :=
| steps_nil : forall w, steps w [] w
| steps_cons : forall (A : Type) (ev : Event A) (a : A) w w1 tr w2,
    handle A ev w = (a, w1) ->
    steps w1 tr w2 ->
    steps w (Log ev a :: tr) w2.

End Run.

Arguments run {W} handle {R} p w.
Arguments steps {W} handle w tr w'.

End Effects.

Import Effects.

Notation "x <- p ;; k" := (bind p (fun x => k))
  (at level 61, p at next level, right associativity).
Notation "p ;; k" := (bind p (fun _ => k))
  (at level 61, right associativity).

(* ===================================================================== *)
(** ** The script: prompt builder, adapters, and the "Try Models" tab *)
(* ===================================================================== *)

Definition create_prompt (question : string) : string :=
  "Solve this mathematics question step by step.

    QUESTION:
    " ++ question ++ "

    REQUIREMENTS:
    1. Analyze the question carefully
    2. Show ALL mathematical steps clearly
    3. Calculate values precisely
    4. Evaluate each step systematically

    Your complete solution:".

Definition get_gpt4_response (client : AzureOpenAI) (prompt : string)
    : Prog (pyval * pyval) :=
  start_time <- trigger time_time ;;
  try_except
    (response <- call (chat_completions_create client
         [("model", VStr "gpt-4o");
          ("messages",
           VList [VDict [("role", VStr "user"); ("content", VStr prompt)]]);
          ("temperature", VInt 0);
          ("max_tokens", VInt 2000)]) ;;
     choice0 <- list_getitem (choices response) 0 ;;
     let response_text := of_optional_str (content (message choice0)) in
     now <- trigger time_time ;;
     let time_taken := VFloat (now - start_time)%float in
     Ret (response_text, time_taken))
    (fun e => Ret (VStr ("Error: " ++ str e), VInt 0)).

Definition get_tinyllama_response (prompt : string) : Prog (pyval * pyval) :=
  start_time <- trigger time_time ;;
  try_except
    (response <- call (ollama_generate
         [("model", VStr "tinyllama");
          ("prompt", VStr prompt);
          ("options",
           VDict [("num_predict", VInt 1000);
                  ("top_k", VInt 20);
                  ("top_p", VFloat 0.9);
                  ("repeat_penalty", VFloat 1.1);
                  ("temperature", VFloat 0.7);
                  ("stop", VList [VStr "Question:"; VStr "QUESTION:";
                                  VStr (String "010" (String "010" ""))])])]) ;;
     response_text <- dict_getitem response "response" ;;
     now <- trigger time_time ;;
     let time_taken := VFloat (now - start_time)%float in
     Ret (response_text, time_taken))
    (fun e => Ret (VStr ("Error: " ++ str e), VInt 0)).

(** [st.markdown(f"*Response time: {time_taken:.2f} seconds*")] *)
Definition response_time_line (time_taken : pyval) : MdBody :=
  MdFString [FLit "*Response time: "; FField time_taken ".2f";
             FLit " seconds*"].

(** The body of [if st.button("Submit Question"):]. *)
Definition submit_handler (azure_client : AzureOpenAI)
    (user_question : string) : Prog unit :=
  if truthy user_question then
    with_ (Spinner "Getting responses from both models...")
      (let prompt := create_prompt user_question in
       trigger (st_columns 2) ;;
       with_ (Column 1)
         (trigger (st_markdown (MdVal (VStr "### GPT-4 Response"))) ;;
          r <- get_gpt4_response azure_client prompt ;;
          let (response, time_taken) := r in
          trigger (st_markdown (MdVal response)) ;;
          trigger (st_markdown (response_time_line time_taken))) ;;
       with_ (Column 2)
         (trigger (st_markdown (MdVal (VStr "### TinyLlama Response"))) ;;
          r <- get_tinyllama_response prompt ;;
          let (response, time_taken) := r in
          trigger (st_markdown (MdVal response)) ;;
          trigger (st_markdown (response_time_line time_taken))))
  else
    trigger (st_warning "Please enter a question first.").

(** The block [with tabs[2]:]. *)
Definition try_models_tab (azure_client : AzureOpenAI) : Prog unit :=
  trigger (st_header "Try the Models") ;;
  trigger (st_markdown (MdVal (VStr
    "Enter a mathematics question to see how both models would respond"))) ;;
  user_question <- trigger (st_text_area "Enter your mathematics question:" 100) ;;
  pressed <- trigger (st_button "Submit Question") ;;
  if (pressed : bool) then submit_handler azure_client user_question
  else Ret tt.

(* ===================================================================== *)
(** ** Sample environments *)
(* ===================================================================== *)

Module Sample.

(** A world whose clock yields the given readings one after the other (and
    0.0 once they are used up), whose endpoints give fixed answers, and
    whose user typed [question] and pressed (or not) the button. *)
Definition handle (cloud : PyException + ChatCompletion)
    (local : PyException + GenerateResponse)
    (question : string) (pressed : bool)
    : forall A : Type, Event A -> list float -> A * list float :=
  fun A ev w =>
    match ev in Event T return T * list float with
    | time_time => (hd 0%float w, tl w)
    | chat_completions_create _ _ => (cloud, w)
    | ollama_generate _ => (local, w)
    | st_header _ => (tt, w)
    | st_markdown _ => (tt, w)
    | st_text_area _ _ => (question, w)
    | st_button _ => (pressed, w)
    | st_columns _ => (tt, w)
    | st_warning _ => (tt, w)
    | cm_enter _ => (tt, w)
    | cm_exit _ => (tt, w)
    end.

Definition client : AzureOpenAI :=
  mkAzureOpenAI (Some "https://example.openai.azure.com/") (Some "key")
                (Some "2024-02-01").

Definition connection_refused : PyException :=
  mkException "ConnectionError" "connection refused".

Definition cloud_ok : PyException + ChatCompletion :=
  inr (mkChatCompletion [mkChoice (mkMessage (Some "4"))]).

Definition cloud_down : PyException + ChatCompletion :=
  inl (mkException "APIConnectionError" "Connection error.").

Definition local_ok : PyException + GenerateResponse :=
  inr [("model", VStr "tinyllama"); ("response", VStr "2+2 is 4"); ("done", VBool true)].

Definition local_down : PyException + GenerateResponse :=
  inl connection_refused.

Definition clock : list float := [100.0; 100.8; 101.0; 103.5]%float.

End Sample.

(* ===================================================================== *)
(** ** Vocabulary of the statements *)
(* ===================================================================== *)

(** The keyword arguments [get_gpt4_response] passes to
    [client.chat.completions.create]. *)
Definition gpt4_args (prompt : string) : kwargs :=
  [("model", VStr "gpt-4o");
   ("messages",
    VList [VDict [("role", VStr "user"); ("content", VStr prompt)]]);
   ("temperature", VInt 0);
   ("max_tokens", VInt 2000)].

(** The keyword arguments [get_tinyllama_response] passes to
    [ollama.generate]. *)
Definition tinyllama_args (prompt : string) : kwargs :=
  [("model", VStr "tinyllama");
   ("prompt", VStr prompt);
   ("options",
    VDict [("num_predict", VInt 1000);
           ("top_k", VInt 20);
           ("top_p", VFloat 0.9);
           ("repeat_penalty", VFloat 1.1);
           ("temperature", VFloat 0.7);
           ("stop", VList [VStr "Question:"; VStr "QUESTION:";
                           VStr (String "010" (String "010" ""))])])].

(** The rendering calls of [submit_handler] before the cloud adapter runs,
    between the two adapters, and after the local adapter has returned. *)
Definition rendered_before : Trace :=
  [Log (cm_enter (Spinner "Getting responses from both models...")) tt;
   Log (st_columns 2) tt;
   Log (cm_enter (Column 1)) tt;
   Log (st_markdown (MdVal (VStr "### GPT-4 Response"))) tt].

Definition rendered_between (cloud : pyval * pyval) : Trace :=
  [Log (st_markdown (MdVal (fst cloud))) tt;
   Log (st_markdown (response_time_line (snd cloud))) tt;
   Log (cm_exit (Column 1)) tt;
   Log (cm_enter (Column 2)) tt;
   Log (st_markdown (MdVal (VStr "### TinyLlama Response"))) tt].

Definition rendered_after (local : pyval * pyval) : Trace :=
  [Log (st_markdown (MdVal (fst local))) tt;
   Log (st_markdown (response_time_line (snd local))) tt;
   Log (cm_exit (Column 2)) tt;
   Log (cm_exit (Spinner "Getting responses from both models...")) tt].

(** The calls that open the tab, with the answers of the text area and of
    the button. *)
Definition tab_opening (question : string) (pressed : bool) : Trace :=
  [Log (st_header "Try the Models") tt;
   Log (st_markdown (MdVal (VStr
     "Enter a mathematics question to see how both models would respond"))) tt;
   Log (st_text_area "Enter your mathematics question:" 100) question;
   Log (st_button "Submit Question") pressed].

(** What the user typed, and whether the button was pressed: the answers of
    the [st.text_area] and [st.button] calls of a trace. *)
Fixpoint text_inputs (tr : Trace) : list string :=
  match tr with
  | [] => []
  | Log ev a :: tr' =>
      match ev in Event T return T -> list string with
      | st_text_area _ _ => fun q => q :: text_inputs tr'
      | _ => fun _ => text_inputs tr'
      end a
  end.

Fixpoint button_answers (tr : Trace) : list bool :=
  match tr with
  | [] => []
  | Log ev a :: tr' =>
      match ev in Event T return T -> list bool with
      | st_button _ => fun b => b :: button_answers tr'
      | _ => fun _ => button_answers tr'
      end a
  end.

(** The [with] statements entered ([true]) and left ([false]), in order. *)
Fixpoint cm_events (tr : Trace) : list (bool * ContextManager) :=
  match tr with
  | [] => []
  | Log ev _ :: tr' =>
      match ev with
      | cm_enter cm => (true, cm) :: cm_events tr'
      | cm_exit cm => (false, cm) :: cm_events tr'
      | _ => cm_events tr'
      end
  end.

(** The readings of [time.time()], in order. *)
Fixpoint clock_reads (tr : Trace) : list float :=
  match tr with
  | [] => []
  | Log ev a :: tr' =>
      match ev in Event T return T -> list float with
      | time_time => fun t => t :: clock_reads tr'
      | _ => fun _ => clock_reads tr'
      end a
  end.

(** Whether a call is a clock reading or a request to a model endpoint. *)
Definition clock_or_request (en : Entry) : bool :=
  match en with
  | Log ev _ =>
      match ev with
      | time_time => true
      | chat_completions_create _ _ => true
      | ollama_generate _ => true
      | _ => false
      end
  end.

(* ===================================================================== *)
(** ** The charts and the summary of the first tab *)
(* ===================================================================== *)

Module Charts.

(** [go.Scatterpolar(r=..., theta=..., fill=..., name=...)] *)
Record Scatterpolar : Type := mkScatterpolar {
  sp_r : list float;
  sp_theta : list string;
  sp_fill : string;
  sp_name : string
}.

(** [go.Bar(name=..., x=..., y=...)] *)
Record Bar : Type := mkBar {
  bar_name : string;
  bar_x : list string;
  bar_y : list float
}.

Inductive PlotTrace : Type :=
| TraceScatterpolar (t : Scatterpolar)
| TraceBar (t : Bar).

(** [go.Figure]: its traces and the keyword arguments of its layout. *)
Record Figure : Type := mkFigure {
  fig_data : list PlotTrace;
  fig_layout : kwargs
}.

(** [go.Figure(data=traces)]; [go.Figure()] is [Figure_ []]. *)
Definition Figure_ (traces : list PlotTrace) : Figure := mkFigure traces [].

Definition add_trace (fig : Figure) (t : PlotTrace) : Figure :=
  mkFigure (fig_data fig ++ [t]) (fig_layout fig).

(** [d[key] = v] on a dict kept in insertion order. *)
Fixpoint dict_set (d : kwargs) (key : string) (v : pyval) : kwargs :=
  match d with
  | [] => [(key, v)]
  | (k, v0) :: d' =>
      if String.eqb k key then (k, v) :: d'
      else (k, v0) :: dict_set d' key v
  end.

Definition update_layout (fig : Figure) (args : kwargs) : Figure :=
  mkFigure (fig_data fig)
           (fold_left (fun d kv => dict_set d (fst kv) (snd kv)) args
                      (fig_layout fig)).

(** [series[:-1]]: all entries but the last; empty for an empty series. *)
Definition but_last {A : Type} (series : list A) : list A :=
  removelast series.

(** The figure [create_radar_chart(data, title)] hands to
    [st.plotly_chart]. *)
Definition create_radar_chart (data : Tables.DataFrame) (title : string)
    : Figure :=
  let fig := Figure_ [] in
  let fig := add_trace fig (TraceScatterpolar
    (mkScatterpolar (but_last (Tables.GPT4 data))
                    (but_last (Tables.Metric data))
                    "toself" "GPT-4")) in
  let fig := add_trace fig (TraceScatterpolar
    (mkScatterpolar (but_last (Tables.TinyLlama data))
                    (but_last (Tables.Metric data))
                    "toself" "TinyLlama")) in
  update_layout fig
    [("polar",
      VDict [("radialaxis",
              VDict [("visible", VBool true);
                     ("range", VList [VInt 0; VInt 1])])]);
     ("showlegend", VBool true);
     ("title", VStr title)].

(** The figure [create_bar_chart(data, title)] hands to
    [st.plotly_chart]. *)
Definition create_bar_chart (data : Tables.DataFrame) (title : string)
    : Figure :=
  let fig := Figure_
    [TraceBar (mkBar "GPT-4" (Tables.Metric data) (Tables.GPT4 data));
     TraceBar (mkBar "TinyLlama" (Tables.Metric data)
                     (Tables.TinyLlama data))] in
  update_layout fig
    [("title", VStr title);
     ("xaxis_title", VStr "Metrics");
     ("yaxis_title", VStr "Score");
     ("barmode", VStr "group");
     ("xaxis_tickangle", VInt (-45))].

(** The frame of the first tab, one row per subject. *)
Record SummaryFrame : Type := mkSummaryFrame {
  Subject : list string;
  SummaryGPT4 : list float;
  SummaryTinyLlama : list float
}.

Definition subjects_summary : SummaryFrame := {|
  Subject := ["Abstract Algebra"; "College Mathematics";
              "Elementary Mathematics"; "High School Mathematics"];
  SummaryGPT4 := [0.71; 0.74; 0.59; 0.76]%float;
  SummaryTinyLlama := [0.05; 0.18; 0.19; 0.26]%float
|}.

(** The titles under which the second tab shows the four subject tables,
    in the order of its sub-tabs. *)
Definition subject_tabs : list (string * Tables.DataFrame) :=
  [("Abstract Algebra", Tables.abstract_algebra_data);
   ("College Mathematics", Tables.college_math_data);
   ("Elementary Mathematics", Tables.elementary_math_data);
   ("High School Mathematics", Tables.high_school_math_data)].

(** The radial values and the categories a figure plots. *)
Definition radial_values (fig : Figure) : list float :=
  flat_map (fun t => match t with
                     | TraceScatterpolar sp => sp_r sp
                     | TraceBar _ => []
                     end) (fig_data fig).

Definition categories (fig : Figure) : list (list string) :=
  map (fun t => match t with
                | TraceScatterpolar sp => sp_theta sp
                | TraceBar b => bar_x b
                end) (fig_data fig).

(** The [range] of the radial axis in the layout of a figure. *)
Definition radial_range (fig : Figure) : option pyval :=
  match dict_get (fig_layout fig) "polar" with
  | Some (VDict polar) =>
      match dict_get polar "radialaxis" with
      | Some (VDict axis) => dict_get axis "range"
      | _ => None
      end
  | _ => None
  end.

Definition in_unit_interval (x : float) : bool :=
  ((0 <=? x) && (x <=? 1))%float.

End Charts.

(* ===================================================================== *)
(** ** Running programs: general facts *)
(* ===================================================================== *)

Section RunFacts.

Variable W : Type.
Variable handle : forall A : Type, Event A -> W -> A * W.

Lemma run_bind {A B : Type} (p : Prog A) (f : A -> Prog B) (w : W) :
  run handle (bind p f) w =
    match run handle p w with
    | (tr1, w1, inl e) => (tr1, w1, inl e)
    | (tr1, w1, inr a) =>
        let '(tr2, w2, res) := run handle (f a) w1 in ((tr1 ++ tr2)%list, w2, res)
    end.
Proof.
  revert w. induction p as [r | e | T ev k IH]; intros w; simpl.
  - destruct (run handle (f r) w) as [[tr2 w2] res]. reflexivity.
  - reflexivity.
  - destruct (handle T ev w) as [a w1]. rewrite IH.
    destruct (run handle (k a) w1) as [[tr1 w2] [e | a']].
    + reflexivity.
    + destruct (run handle (f a') w2) as [[tr2 w3] res]. reflexivity.
Qed.

Lemma run_bind_ok {A B : Type} (p : Prog A) (f : A -> Prog B)
    (w w1 w2 : W) tr1 tr2 a res :
  run handle p w = (tr1, w1, inr a) ->
  run handle (f a) w1 = (tr2, w2, res) ->
  run handle (bind p f) w = ((tr1 ++ tr2)%list, w2, res).
Proof.
  intros H1 H2. rewrite run_bind, H1, H2. reflexivity.
Qed.

Lemma run_trigger {A : Type} (ev : Event A) (w w1 : W) (a : A) :
  handle A ev w = (a, w1) ->
  run handle (trigger ev) w = ([Log ev a], w1, inr a).
Proof.
  intros H. simpl. rewrite H. reflexivity.
Qed.

Lemma run_try_finally_trigger {R : Type} (body : Prog R)
    (ev : Event unit) (w w1 w2 : W) tr res :
  run handle body w = (tr, w1, res) ->
  handle unit ev w1 = (tt, w2) ->
  run handle (try_finally body (trigger ev)) w
    = ((tr ++ [Log ev tt])%list, w2, res).
Proof.
  revert w tr. induction body as [r | e | T ev' k IH]; intros w tr Hb He.
  - simpl in Hb. injection Hb as <- <- <-. simpl. rewrite He. reflexivity.
  - simpl in Hb. injection Hb as <- <- <-. simpl. rewrite He. reflexivity.
  - simpl in Hb |- *. destruct (handle T ev' w) as [a wa].
    destruct (run handle (k a) wa) as [[tr' w'] res'] eqn:Hk.
    injection Hb as <- <- <-.
    rewrite (IH a wa tr' Hk He). reflexivity.
Qed.

Lemma run_with {R : Type} (cm : ContextManager) (body : Prog R)
    (w w1 w2 w3 : W) tr res :
  handle unit (cm_enter cm) w = (tt, w1) ->
  run handle body w1 = (tr, w2, res) ->
  handle unit (cm_exit cm) w2 = (tt, w3) ->
  run handle (with_ cm body) w
    = ((Log (cm_enter cm) tt :: tr ++ [Log (cm_exit cm) tt])%list, w3, res).
Proof.
  intros He Hb Hx. unfold with_. simpl. rewrite He.
  rewrite (run_try_finally_trigger body _ _ _ _ _ _ Hb Hx). reflexivity.
Qed.

(** The trace of a run is a sequence of answered calls leading from the
    initial to the final world. *)
Lemma run_steps {R : Type} (p : Prog R) (w w' : W) tr res :
  run handle p w = (tr, w', res) -> steps handle w tr w'.
Proof.
  revert w tr. induction p as [r | e | T ev k IH]; intros w tr H; simpl in H.
  - injection H as <- <- <-. constructor.
  - injection H as <- <- <-. constructor.
  - destruct (handle T ev w) as [a wa] eqn:Ha.
    destruct (run handle (k a) wa) as [[tr' w2] res'] eqn:Hk.
    injection H as <- <- <-.
    econstructor; [exact Ha | eapply IH; exact Hk].
Qed.

Lemma steps_app (w1 w2 w3 : W) tr1 tr2 :
  steps handle w1 tr1 w2 -> steps handle w2 tr2 w3 ->
  steps handle w1 (tr1 ++ tr2)%list w3.
Proof.
  induction 1 as [w | T ev a w wa tr w2 Ha _ IH]; intros H2; simpl.
  - exact H2.
  - econstructor; [exact Ha | exact (IH H2)].
Qed.

Lemma requests_app (tr1 tr2 : Trace) :
  requests (tr1 ++ tr2)%list = (requests tr1 ++ requests tr2)%list.
Proof.
  induction tr1 as [| en tr1 IH]; simpl; [reflexivity|].
  destruct (request_of en); simpl; rewrite IH; reflexivity.
Qed.

Lemma markdowns_app (tr1 tr2 : Trace) :
  markdowns (tr1 ++ tr2)%list = (markdowns tr1 ++ markdowns tr2)%list.
Proof.
  induction tr1 as [| [T ev a] tr1 IH]; simpl; [reflexivity|].
  destruct ev; simpl; rewrite IH; reflexivity.
Qed.

Lemma warnings_app (tr1 tr2 : Trace) :
  warnings (tr1 ++ tr2)%list = (warnings tr1 ++ warnings tr2)%list.
Proof.
  induction tr1 as [| [T ev a] tr1 IH]; simpl; [reflexivity|].
  destruct ev; simpl; rewrite IH; reflexivity.
Qed.

(** *** The adapters *)

(** What the cloud adapter returns, from the two clock readings and the
    answer of the endpoint. *)
Lemma run_get_gpt4_response client prompt (w : W) :
  exists tr w' text elapsed,
    run handle (get_gpt4_response client prompt) w
      = (tr, w', inr (text, elapsed))
    /\ requests tr = [CloudRequest client (gpt4_args prompt)]
    /\ markdowns tr = [] /\ warnings tr = []
    /\ is_bool text = false
    /\ ((exists f, elapsed = VFloat f)
        \/ (elapsed = VInt 0
            /\ exists e, text = VStr ("Error: " ++ str e))).
Proof.
  unfold get_gpt4_response, gpt4_args. simpl.
  destruct (handle _ time_time w) as [t0 w1].
  destruct (handle _ (chat_completions_create client _) w1)
    as [[e | [[| [[c]] cs]]] w2]; simpl.
  - do 4 eexists. repeat split. right. split; [reflexivity|].
    exists e. reflexivity.
  - do 4 eexists. repeat split. right. split; [reflexivity|].
    exists (mkException "IndexError" "list index out of range").
    reflexivity.
  - destruct (handle _ time_time w2) as [t1 w3].
    do 4 eexists. split; [reflexivity|].
    split; [reflexivity|]. split; [reflexivity|]. split; [reflexivity|].
    split; [destruct c; reflexivity|].
    left. eexists. reflexivity.
Qed.

Lemma run_get_tinyllama_response prompt (w : W) :
  exists tr w' text elapsed,
    run handle (get_tinyllama_response prompt) w
      = (tr, w', inr (text, elapsed))
    /\ requests tr = [LocalRequest (tinyllama_args prompt)]
    /\ markdowns tr = [] /\ warnings tr = []
    /\ ((exists f, elapsed = VFloat f)
        \/ (elapsed = VInt 0
            /\ exists e, text = VStr ("Error: " ++ str e))).
Proof.
  unfold get_tinyllama_response, tinyllama_args. simpl.
  destruct (handle _ time_time w) as [t0 w1].
  destruct (handle _ (ollama_generate _) w1) as [[e | d] w2]; simpl.
  - do 4 eexists. repeat split. right. split; [reflexivity|].
    exists e. reflexivity.
  - unfold dict_getitem. destruct (dict_get d "response") as [v |]; simpl.
    + destruct (handle _ time_time w2) as [t1 w3].
      do 4 eexists. repeat split. left. eexists. reflexivity.
    + do 4 eexists. repeat split. right. split; [reflexivity|].
      exists (mkException "KeyError" "'response'"). reflexivity.
Qed.

(** *** The submit handler *)

(** A submitted non-empty question: the rendering calls and the two
    adapter runs follow one another. *)
Lemma run_submit_handler client q (w : W) :
  q <> "" ->
  exists w1 tr_c w2 cloud w3 tr_l w4 local w5,
    run handle (submit_handler client q) w
      = ((rendered_before ++ tr_c ++ rendered_between cloud
            ++ tr_l ++ rendered_after local)%list, w5, inr tt)
    /\ steps handle w rendered_before w1
    /\ run handle (get_gpt4_response client (create_prompt q)) w1
         = (tr_c, w2, inr cloud)
    /\ steps handle w2 (rendered_between cloud) w3
    /\ run handle (get_tinyllama_response (create_prompt q)) w3
         = (tr_l, w4, inr local)
    /\ steps handle w4 (rendered_after local) w5
    /\ (requests tr_c = [CloudRequest client (gpt4_args (create_prompt q))]
        /\ markdowns tr_c = [] /\ warnings tr_c = [])
    /\ (requests tr_l = [LocalRequest (tinyllama_args (create_prompt q))]
        /\ markdowns tr_l = [] /\ warnings tr_l = []).
Proof.
  intros Hq. destruct q as [| c q']; [contradiction|].
  set (q := String c q') in *.
  destruct (handle unit
    (cm_enter (Spinner "Getting responses from both models...")) w)
    as [[] wa] eqn:E1.
  destruct (handle unit (st_columns 2) wa) as [[] wb] eqn:E2.
  destruct (handle unit (cm_enter (Column 1)) wb) as [[] wc] eqn:E3.
  destruct (handle unit (st_markdown (MdVal (VStr "### GPT-4 Response"))) wc)
    as [[] w1] eqn:E4.
  destruct (run_get_gpt4_response client (create_prompt q) w1)
    as (tr_c & w2 & text_c & el_c & Hc & Hcr & Hcm & Hcw & _).
  destruct (handle unit (st_markdown (MdVal text_c)) w2)
    as [[] wd] eqn:E5.
  destruct (handle unit (st_markdown (response_time_line el_c)) wd)
    as [[] we] eqn:E6.
  destruct (handle unit (cm_exit (Column 1)) we) as [[] wf] eqn:E7.
  destruct (handle unit (cm_enter (Column 2)) wf) as [[] wg] eqn:E8.
  destruct (handle unit
    (st_markdown (MdVal (VStr "### TinyLlama Response"))) wg)
    as [[] w3] eqn:E9.
  destruct (run_get_tinyllama_response (create_prompt q) w3)
    as (tr_l & w4 & text_l & el_l & Hl & Hlr & Hlm & Hlw & _).
  destruct (handle unit (st_markdown (MdVal text_l)) w4)
    as [[] wh] eqn:E10.
  destruct (handle unit (st_markdown (response_time_line el_l)) wh)
    as [[] wi] eqn:E11.
  destruct (handle unit (cm_exit (Column 2)) wi) as [[] wj] eqn:E12.
  destruct (handle unit
    (cm_exit (Spinner "Getting responses from both models...")) wj)
    as [[] w5] eqn:E13.
  exists w1, tr_c, w2, (text_c, el_c), w3, tr_l, w4, (text_l, el_l), w5.
  split; [| split; [| split; [exact Hc | split; [| split; [exact Hl |
    split; [| split; [exact (conj Hcr (conj Hcm Hcw))
                     | exact (conj Hlr (conj Hlm Hlw))]]]]]]].
  - unfold submit_handler. change (truthy q) with true. cbv iota.
    etransitivity.
    + eapply run_with; [exact E1 | | exact E13].
      eapply run_bind_ok; [apply run_trigger; exact E2 |].
      eapply run_bind_ok.
      * eapply run_with; [exact E3 | | exact E7].
        eapply run_bind_ok; [apply run_trigger; exact E4 |].
        eapply run_bind_ok; [exact Hc |]. cbv beta iota.
        eapply run_bind_ok; [apply run_trigger; exact E5 |].
        apply run_trigger; exact E6.
      * eapply run_with; [exact E8 | | exact E12].
        eapply run_bind_ok; [apply run_trigger; exact E9 |].
        eapply run_bind_ok; [exact Hl |]. cbv beta iota.
        eapply run_bind_ok; [apply run_trigger; exact E10 |].
        apply run_trigger; exact E11.
    + f_equal. f_equal. unfold rendered_before, rendered_between,
        rendered_after. simpl.
      repeat (rewrite <- app_assoc; simpl). reflexivity.
  - unfold rendered_before.
    repeat (econstructor; [eassumption|]). constructor.
  - unfold rendered_between. simpl.
    repeat (econstructor; [eassumption|]). constructor.
  - unfold rendered_after. simpl.
    repeat (econstructor; [eassumption|]). constructor.
Qed.

(** The tab: the four leading calls, then the handler if the button was
    pressed. *)
Lemma run_try_models_tab client (w : W) :
  exists q pressed w4,
    steps handle w (tab_opening q pressed) w4
    /\ run handle (try_models_tab client) w
       = let '(tr, w', res) :=
           if (pressed : bool) then run handle (submit_handler client q) w4
           else ([], w4, inr tt) in
         ((tab_opening q pressed ++ tr)%list, w', res).
Proof.
  unfold try_models_tab, tab_opening.
  destruct (handle unit (st_header "Try the Models") w) as [[] w1] eqn:E1.
  destruct (handle unit (st_markdown (MdVal (VStr
    "Enter a mathematics question to see how both models would respond")))
    w1) as [[] w2] eqn:E2.
  destruct (handle string
    (st_text_area "Enter your mathematics question:" 100) w2)
    as [q w3] eqn:E3.
  destruct (handle bool (st_button "Submit Question") w3)
    as [pressed w4] eqn:E4.
  exists q, pressed, w4. split.
  - repeat (econstructor; [eassumption|]). constructor.
  - rewrite run_bind, (run_trigger _ _ _ _ E1).
    rewrite run_bind, (run_trigger _ _ _ _ E2).
    rewrite run_bind, (run_trigger _ _ _ _ E3).
    rewrite run_bind, (run_trigger _ _ _ _ E4).
    destruct pressed.
    + destruct (run handle (submit_handler client q) w4) as [[tr w'] res].
      reflexivity.
    + reflexivity.
Qed.

End RunFacts.

(* ===================================================================== *)
(** ** Strings: prefixes and substrings *)
(* ===================================================================== *)

Lemma length_append (a b : string) :
  String.length (a ++ b) = String.length a + String.length b.
Proof.
  induction a as [| c a IH]; simpl; [reflexivity | rewrite IH; reflexivity].
Qed.

Lemma prefix_empty (s : string) : String.prefix "" s = true.
Proof. destruct s; reflexivity. Qed.

Lemma prefix_app_l (n a b : string) :
  String.prefix n a = true -> String.prefix n (a ++ b) = true.
Proof.
  revert a. induction n as [| c n IH]; intros a H.
  - apply prefix_empty.
  - destruct a as [| d a]; simpl in H; [discriminate|]. simpl.
    destruct (ascii_dec c d); [apply IH; exact H | discriminate].
Qed.

Lemma prefix_append (n b : string) : String.prefix n (n ++ b) = true.
Proof.
  induction n as [| c n IH]; simpl.
  - apply prefix_empty.
  - destruct (ascii_dec c c) as [_ | Hne]; [exact IH | contradiction].
Qed.

Lemma prefix_split (n h : string) :
  String.prefix n h = true -> exists b, h = n ++ b.
Proof.
  revert h. induction n as [| c n IH]; intros h H.
  - exists h. reflexivity.
  - destruct h as [| d h]; simpl in H; [discriminate|].
    destruct (ascii_dec c d) as [-> | _]; [| discriminate].
    destruct (IH h H) as [b ->]. exists b. reflexivity.
Qed.

Lemma contains_unfold (hay needle : string) :
  contains hay needle
  = String.prefix needle hay
    || match hay with
       | EmptyString => false
       | String _ hay' => contains hay' needle
       end.
Proof. destruct hay; reflexivity. Qed.

Lemma contains_app_l (a b n : string) :
  contains a n = true -> contains (a ++ b) n = true.
Proof.
  induction a as [| c a IH]; intros H.
  - rewrite contains_unfold in H. rewrite orb_false_r in H.
    rewrite contains_unfold. apply orb_true_iff. left.
    apply (prefix_app_l n "" b H).
  - rewrite contains_unfold in H. apply orb_true_iff in H.
    change (String c a ++ b) with (String c (a ++ b)).
    rewrite contains_unfold. apply orb_true_iff.
    destruct H as [H | H].
    + left. apply (prefix_app_l n (String c a) b H).
    + right. apply IH. exact H.
Qed.

Lemma contains_app_r (a b n : string) :
  contains b n = true -> contains (a ++ b) n = true.
Proof.
  intros H. induction a as [| c a IH]; [exact H|].
  change (String c a ++ b) with (String c (a ++ b)).
  rewrite contains_unfold, IH. apply orb_true_r.
Qed.

(** [contains] is the substring relation. *)
Lemma contains_spec (hay n : string) :
  contains hay n = true <-> exists a b, hay = a ++ n ++ b.
Proof.
  split.
  - induction hay as [| c hay IH]; intros H;
      rewrite contains_unfold in H; apply orb_true_iff in H.
    + destruct H as [H | H]; [| discriminate].
      destruct (prefix_split _ _ H) as [b Hb]. exists "", b. exact Hb.
    + destruct H as [H | H].
      * destruct (prefix_split _ _ H) as [b Hb]. exists "", b. exact Hb.
      * destruct (IH H) as (a & b & ->). exists (String c a), b. reflexivity.
  - intros (a & b & ->). apply contains_app_r.
    rewrite contains_unfold, prefix_append. reflexivity.
Qed.

Lemma truthy_false_iff (s : string) : truthy s = false <-> s = "".
Proof.
  destruct s; simpl; split; intros H; try reflexivity; discriminate.
Qed.

(* ===================================================================== *)
(** ** The script on concrete inputs *)
(* ===================================================================== *)

Example create_prompt_two_plus_two :
  create_prompt "What is 2+2?" =
  "Solve this mathematics question step by step.

    QUESTION:
    What is 2+2?

    REQUIREMENTS:
    1. Analyze the question carefully
    2. Show ALL mathematical steps clearly
    3. Calculate values precisely
    4. Evaluate each step systematically

    Your complete solution:".
Proof. reflexivity. Qed.

(** The cloud answers "4", the local endpoint refuses the connection: both
    results are rendered, cloud first. *)
Example scenario_cloud_ok_local_down :
  let '(tr, _, res) :=
    run (Sample.handle Sample.cloud_ok Sample.local_down "What is 2+2?" true)
        (try_models_tab Sample.client) Sample.clock in
  res = inr tt
  /\ markdowns tr =
       [MdVal (VStr
          "Enter a mathematics question to see how both models would respond");
        MdVal (VStr "### GPT-4 Response");
        MdVal (VStr "4");
        response_time_line (VFloat (100.8 - 100.0)%float);
        MdVal (VStr "### TinyLlama Response");
        MdVal (VStr "Error: connection refused");
        response_time_line (VInt 0)]
  /\ requests tr =
       [CloudRequest Sample.client (gpt4_args (create_prompt "What is 2+2?"));
        LocalRequest (tinyllama_args (create_prompt "What is 2+2?"))].
Proof. vm_compute. repeat split. Qed.

Example scenario_button_not_pressed :
  run (Sample.handle Sample.cloud_ok Sample.local_ok "What is 2+2?" false)
      (try_models_tab Sample.client) Sample.clock
  = (tab_opening "What is 2+2?" false, Sample.clock, inr tt).
Proof. reflexivity. Qed.

(** A completion without choices is a failure like any other: the
    [IndexError] raised by [response.choices[0]] is caught. *)
Example malformed_completion_contained :
  run (Sample.handle (inr (mkChatCompletion [])) Sample.local_ok "" false)
      (get_gpt4_response Sample.client "p") Sample.clock
  = ([Log time_time 100.0%float;
      Log (chat_completions_create Sample.client (gpt4_args "p"))
          (inr (mkChatCompletion []))],
     tl Sample.clock,
     inr (VStr "Error: list index out of range", VInt 0)).
Proof. reflexivity. Qed.

(* ===================================================================== *)
(** ** The properties of the script *)
(* ===================================================================== *)

(** C1: when the transport call inside [get_gpt4_response] or inside
    [get_tinyllama_response] raises an exception [e], the adapter does not
    raise: it returns the pair of the string "Error: " followed by [str(e)]
    and of the elapsed time 0. *)
Theorem adapter_failure_contained (W : Type)
    (handle : forall A : Type, Event A -> W -> A * W)
    (w w1 : W) (t0 : float) (client : AzureOpenAI) (prompt : string) :
  handle float time_time w = (t0, w1) ->
  (forall e w2,
     handle _ (chat_completions_create client (gpt4_args prompt)) w1
       = (inl e, w2) ->
     run handle (get_gpt4_response client prompt) w
       = ([Log time_time t0;
           Log (chat_completions_create client (gpt4_args prompt)) (inl e)],
          w2, inr (VStr ("Error: " ++ str e), VInt 0)))
  /\ (forall e w2,
        handle _ (ollama_generate (tinyllama_args prompt)) w1 = (inl e, w2) ->
        run handle (get_tinyllama_response prompt) w
          = ([Log time_time t0;
              Log (ollama_generate (tinyllama_args prompt)) (inl e)],
             w2, inr (VStr ("Error: " ++ str e), VInt 0))).
Proof.
  intros Ht. split; intros e w2 He.
  - unfold get_gpt4_response. simpl. rewrite Ht.
    unfold gpt4_args in He. rewrite He. simpl. reflexivity.
  - unfold get_tinyllama_response. simpl. rewrite Ht.
    unfold tinyllama_args in He. rewrite He. simpl. reflexivity.
Qed.

Lemma adapter_failure_contained_witness :
  run (Sample.handle Sample.cloud_down Sample.local_down "" false)
      (get_gpt4_response Sample.client "p") Sample.clock
    = ([Log time_time 100.0%float;
        Log (chat_completions_create Sample.client (gpt4_args "p"))
            Sample.cloud_down],
       tl Sample.clock, inr (VStr "Error: Connection error.", VInt 0))
  /\ run (Sample.handle Sample.cloud_down Sample.local_down "" false)
         (get_tinyllama_response "p") Sample.clock
     = ([Log time_time 100.0%float;
         Log (ollama_generate (tinyllama_args "p")) Sample.local_down],
        tl Sample.clock, inr (VStr "Error: connection refused", VInt 0)).
Proof.
  destruct (adapter_failure_contained (list float)
              (Sample.handle Sample.cloud_down Sample.local_down "" false)
              Sample.clock (tl Sample.clock) 100.0%float Sample.client "p"
              eq_refl) as [Hc Hl].
  split.
  - exact (Hc _ _ eq_refl).
  - exact (Hl _ _ eq_refl).
Defined.

(** C3: for every non-empty question [Q], [create_prompt] is
    deterministic, two calls with the same [Q] giving the same bytes, and
    its output contains [Q] verbatim as a substring. *)
Theorem create_prompt_deterministic (Q : string) :
  Q <> "" ->
  (forall Q', Q' = Q ->
     list_byte_of_string (create_prompt Q')
       = list_byte_of_string (create_prompt Q))
  /\ contains (create_prompt Q) Q = true
  /\ exists before after, create_prompt Q = before ++ Q ++ after.
Proof.
  intros _.
  assert (Hshape : exists before after, create_prompt Q = before ++ Q ++ after).
  { unfold create_prompt. eexists. eexists. reflexivity. }
  split; [| split].
  - intros Q' ->. reflexivity.
  - apply contains_spec. exact Hshape.
  - exact Hshape.
Qed.

Lemma create_prompt_deterministic_witness :
  contains (create_prompt "What is 2+2?") "What is 2+2?" = true.
Proof.
  refine (proj1 (proj2 (create_prompt_deterministic "What is 2+2?" _))).
  discriminate.
Defined.

(** C8: [create_prompt] is total, with no failure mode: for every string
    the result is the template around the question; for the empty string
    it is the bare scaffolding, with the four numbered requirements and
    the surrounding template text. *)
Theorem create_prompt_total :
  create_prompt "" =
  "Solve this mathematics question step by step.

    QUESTION:
    

    REQUIREMENTS:
    1. Analyze the question carefully
    2. Show ALL mathematical steps clearly
    3. Calculate values precisely
    4. Evaluate each step systematically

    Your complete solution:"
  /\ forall q : string,
       String.length (create_prompt q)
         = String.length q + String.length (create_prompt "")
       /\ String.prefix "Solve this mathematics question step by step."
            (create_prompt q) = true
       /\ forallb (contains (create_prompt q))
            ["QUESTION:"; "REQUIREMENTS:";
             "1. Analyze the question carefully";
             "2. Show ALL mathematical steps clearly";
             "3. Calculate values precisely";
             "4. Evaluate each step systematically";
             "Your complete solution:"] = true.
Proof.
  split; [reflexivity|]. intros q. split; [| split].
  - unfold create_prompt. rewrite !length_append. simpl. lia.
  - unfold create_prompt. apply prefix_app_l. reflexivity.
  - unfold forallb.
    rewrite !andb_true_r.
    repeat (apply andb_true_intro; split);
      unfold create_prompt;
      first [ apply contains_app_l; vm_compute; reflexivity
            | apply contains_app_r, contains_app_r; vm_compute; reflexivity ].
Qed.

(** C7: for every prompt, the cloud adapter sends exactly one request,
    with one user-role message holding the prompt, temperature 0 and
    max_tokens 2000; the local adapter sends exactly one request, with the
    options num_predict 1000, top_k 20, top_p 0.9, repeat_penalty 1.1,
    temperature 0.7 and the stop sequences "Question:", "QUESTION:" and a
    double newline. *)
Theorem adapter_request_parameters (W : Type)
    (handle : forall A : Type, Event A -> W -> A * W)
    (w : W) (client : AzureOpenAI) (prompt : string) :
  requests (fst (fst (run handle (get_gpt4_response client prompt) w)))
    = [CloudRequest client
         [("model", VStr "gpt-4o");
          ("messages",
           VList [VDict [("role", VStr "user"); ("content", VStr prompt)]]);
          ("temperature", VInt 0);
          ("max_tokens", VInt 2000)]]
  /\ requests (fst (fst (run handle (get_tinyllama_response prompt) w)))
     = [LocalRequest
          [("model", VStr "tinyllama");
           ("prompt", VStr prompt);
           ("options",
            VDict [("num_predict", VInt 1000);
                   ("top_k", VInt 20);
                   ("top_p", VFloat 0.9);
                   ("repeat_penalty", VFloat 1.1);
                   ("temperature", VFloat 0.7);
                   ("stop",
                    VList [VStr "Question:"; VStr "QUESTION:";
                           VStr (String "010" (String "010" ""))])])]].
Proof.
  split.
  - destruct (run_get_gpt4_response W handle client prompt w)
      as (tr & w' & text & elapsed & Hrun & Hreq & _).
    rewrite Hrun. exact Hreq.
  - destruct (run_get_tinyllama_response W handle prompt w)
      as (tr & w' & text & elapsed & Hrun & Hreq & _).
    rewrite Hrun. exact Hreq.
Qed.

(** C6, as stated, fails: with the cloud endpoint down the adapter returns
    the 2-tuple ("Error: Connection error.", 0); none of its components is
    a boolean. *)
Lemma adapter_result_has_no_flag :
  exists tr w',
    run (Sample.handle Sample.cloud_down Sample.local_ok "" false)
        (get_gpt4_response Sample.client "p") Sample.clock
      = (tr, w', inr (VStr "Error: Connection error.", VInt 0))
    /\ tuple_items (VStr "Error: Connection error.", VInt 0)
         = [VStr "Error: Connection error."; VInt 0]
    /\ existsb is_bool (tuple_items (VStr "Error: Connection error.", VInt 0))
         = false.
Proof.
  do 2 eexists. split; [reflexivity|]. split; reflexivity.
Qed.

(** C6 (amended): every adapter invocation returns exactly a pair (text,
    elapsed) and no success flag: elapsed is a float, or it is the integer
    0 and then the text is "Error: " followed by the description of the
    failure; it is never a boolean. *)
Theorem adapter_result_is_pair (W : Type)
    (handle : forall A : Type, Event A -> W -> A * W)
    (w : W) (client : AzureOpenAI) (prompt : string) :
  (exists tr w' text elapsed,
     run handle (get_gpt4_response client prompt) w
       = (tr, w', inr (text, elapsed))
     /\ tuple_items (text, elapsed) = [text; elapsed]
     /\ existsb is_bool (tuple_items (text, elapsed)) = false
     /\ ((exists f, elapsed = VFloat f)
         \/ (elapsed = VInt 0 /\ exists e, text = VStr ("Error: " ++ str e))))
  /\ (exists tr w' text elapsed,
        run handle (get_tinyllama_response prompt) w
          = (tr, w', inr (text, elapsed))
        /\ tuple_items (text, elapsed) = [text; elapsed]
        /\ is_bool elapsed = false
        /\ ((exists f, elapsed = VFloat f)
            \/ (elapsed = VInt 0
                /\ exists e, text = VStr ("Error: " ++ str e)))).
Proof.
  split.
  - destruct (run_get_gpt4_response W handle client prompt w)
      as (tr & w' & text & elapsed & Hrun & _ & _ & _ & Htext & Hel).
    exists tr, w', text, elapsed.
    split; [exact Hrun|]. split; [reflexivity|]. split; [| exact Hel].
    simpl. rewrite Htext. simpl.
    destruct Hel as [[f ->] | [-> _]]; reflexivity.
  - destruct (run_get_tinyllama_response W handle prompt w)
      as (tr & w' & text & elapsed & Hrun & _ & _ & _ & Hel).
    exists tr, w', text, elapsed.
    split; [exact Hrun|]. split; [reflexivity|]. split; [| exact Hel].
    destruct Hel as [[f ->] | [-> _]]; reflexivity.
Qed.

(** C4: for a submitted non-empty question the two adapters run one after
    the other: the run of the handler is the rendering before, the whole
    run of [get_gpt4_response], the rendering of its result, the whole run
    of [get_tinyllama_response], which starts in a world reached only after
    the cloud adapter has returned, and the rendering of its result; the
    results appear in (cloud, local) order. *)
Theorem comparison_sequential (W : Type)
    (handle : forall A : Type, Event A -> W -> A * W)
    (w : W) (client : AzureOpenAI) (q : string) :
  q <> "" ->
  exists w1 tr_c w2 cloud w3 tr_l w4 local w5,
    run handle (submit_handler client q) w
      = ((rendered_before ++ tr_c ++ rendered_between cloud
            ++ tr_l ++ rendered_after local)%list, w5, inr tt)
    /\ steps handle w rendered_before w1
    /\ run handle (get_gpt4_response client (create_prompt q)) w1
         = (tr_c, w2, inr cloud)
    /\ steps handle w2 (rendered_between cloud) w3
    /\ run handle (get_tinyllama_response (create_prompt q)) w3
         = (tr_l, w4, inr local)
    /\ steps handle w4 (rendered_after local) w5
    /\ requests (rendered_before ++ tr_c)%list
         = [CloudRequest client (gpt4_args (create_prompt q))]
    /\ requests (rendered_between cloud ++ tr_l ++ rendered_after local)%list
         = [LocalRequest (tinyllama_args (create_prompt q))]
    /\ markdowns (rendered_before ++ tr_c ++ rendered_between cloud
                    ++ tr_l ++ rendered_after local)%list
         = [MdVal (VStr "### GPT-4 Response");
            MdVal (fst cloud); response_time_line (snd cloud);
            MdVal (VStr "### TinyLlama Response");
            MdVal (fst local); response_time_line (snd local)].
Proof.
  intros Hq.
  destruct (run_submit_handler W handle client q w Hq)
    as (w1 & tr_c & w2 & cloud & w3 & tr_l & w4 & local & w5
        & Hrun & Hs1 & Hc & Hs2 & Hl & Hs3
        & (Hcr & Hcm & _) & (Hlr & Hlm & _)).
  exists w1, tr_c, w2, cloud, w3, tr_l, w4, local, w5.
  do 6 (split; [assumption|]).
  split; [| split].
  - rewrite requests_app, Hcr. reflexivity.
  - rewrite !requests_app, Hlr. reflexivity.
  - rewrite !markdowns_app, Hcm, Hlm. reflexivity.
Qed.

Lemma comparison_sequential_witness :
  exists tr_c cloud tr_l local w5,
    run (Sample.handle Sample.cloud_ok Sample.local_down "What is 2+2?" true)
        (submit_handler Sample.client "What is 2+2?") Sample.clock
      = ((rendered_before ++ tr_c ++ rendered_between cloud
            ++ tr_l ++ rendered_after local)%list, w5, inr tt).
Proof.
  destruct (comparison_sequential (list float)
              (Sample.handle Sample.cloud_ok Sample.local_down
                 "What is 2+2?" true)
              Sample.clock Sample.client "What is 2+2?")
    as (w1 & tr_c & w2 & cloud & w3 & tr_l & w4 & local & w5 & Hrun & _).
  - discriminate.
  - exists tr_c, cloud, tr_l, local, w5. exact Hrun.
Defined.

(** C5: for a submitted non-empty question the handler builds one prompt,
    [create_prompt q], sends that same prompt to both adapters, once each,
    and always ends without an exception, having obtained and rendered the
    result of the cloud adapter and the result of the local adapter. *)
Theorem comparison_total (W : Type)
    (handle : forall A : Type, Event A -> W -> A * W)
    (w : W) (client : AzureOpenAI) (q : string) :
  q <> "" ->
  exists tr w' cloud local,
    run handle (submit_handler client q) w = (tr, w', inr tt)
    /\ requests tr
         = [CloudRequest client (gpt4_args (create_prompt q));
            LocalRequest (tinyllama_args (create_prompt q))]
    /\ (exists w1 tr_c w2,
          run handle (get_gpt4_response client (create_prompt q)) w1
            = (tr_c, w2, inr cloud))
    /\ (exists w3 tr_l w4,
          run handle (get_tinyllama_response (create_prompt q)) w3
            = (tr_l, w4, inr local))
    /\ markdowns tr
         = [MdVal (VStr "### GPT-4 Response");
            MdVal (fst cloud); response_time_line (snd cloud);
            MdVal (VStr "### TinyLlama Response");
            MdVal (fst local); response_time_line (snd local)]
    /\ warnings tr = [].
Proof.
  intros Hq.
  destruct (run_submit_handler W handle client q w Hq)
    as (w1 & tr_c & w2 & cloud & w3 & tr_l & w4 & local & w5
        & Hrun & _ & Hc & _ & Hl & _
        & (Hcr & Hcm & Hcw) & (Hlr & Hlm & Hlw)).
  eexists. exists w5, cloud, local.
  split; [exact Hrun|]. split; [| split; [| split; [| split]]].
  - rewrite !requests_app, Hcr, Hlr. reflexivity.
  - exists w1, tr_c, w2. exact Hc.
  - exists w3, tr_l, w4. exact Hl.
  - rewrite !markdowns_app, Hcm, Hlm. reflexivity.
  - rewrite !warnings_app, Hcw, Hlw. reflexivity.
Qed.

Lemma comparison_total_witness :
  exists tr w',
    run (Sample.handle Sample.cloud_down Sample.local_down
           "What is 2+2?" true)
        (submit_handler Sample.client "What is 2+2?") Sample.clock
      = (tr, w', inr tt).
Proof.
  destruct (comparison_total (list float)
              (Sample.handle Sample.cloud_down Sample.local_down
                 "What is 2+2?" true)
              Sample.clock Sample.client "What is 2+2?")
    as (tr & w' & cloud & local & Hrun & _).
  - discriminate.
  - exists tr, w'. exact Hrun.
Defined.

(** C9: when the button is pressed and the text area is empty, the tab
    only shows the warning "Please enter a question first.": the handler
    is the warning call alone, no prompt is built, the clock is not read
    and no request is sent to either endpoint. *)
Theorem empty_question_blocked (W : Type)
    (handle : forall A : Type, Event A -> W -> A * W)
    (w w' : W) (client : AzureOpenAI) (tr : Trace)
    (res : PyException + unit) :
  run handle (try_models_tab client) w = (tr, w', res) ->
  hd_error (text_inputs tr) = Some "" ->
  hd_error (button_answers tr) = Some true ->
  submit_handler client ""
    = trigger (st_warning "Please enter a question first.")
  /\ tr = (tab_opening "" true
             ++ [Log (st_warning "Please enter a question first.") tt])%list
  /\ res = inr tt
  /\ requests tr = []
  /\ warnings tr = ["Please enter a question first."].
Proof.
  intros Hrun Hq Hb. split; [reflexivity|].
  destruct (run_try_models_tab W handle client w)
    as (q & pressed & w4 & _ & Htab).
  rewrite Htab in Hrun. clear Htab.
  destruct pressed.
  - destruct (run handle (submit_handler client q) w4)
      as [[tr0 w0] res0] eqn:Hsub.
    injection Hrun as <- <- <-.
    simpl in Hq. injection Hq as ->.
    simpl in Hsub.
    destruct (handle unit (st_warning "Please enter a question first.") w4)
      as [[] w5].
    injection Hsub as <- <- <-.
    repeat split.
  - injection Hrun as <- <- <-. simpl in Hb. discriminate.
Qed.

Lemma empty_question_blocked_witness :
  requests (tab_opening "" true
              ++ [Log (st_warning "Please enter a question first.") tt])%list
    = []
  /\ run (Sample.handle Sample.cloud_ok Sample.local_ok "" true)
         (try_models_tab Sample.client) Sample.clock
     = ((tab_opening "" true
           ++ [Log (st_warning "Please enter a question first.") tt])%list,
        Sample.clock, inr tt).
Proof.
  destruct (empty_question_blocked (list float)
              (Sample.handle Sample.cloud_ok Sample.local_ok "" true)
              Sample.clock Sample.clock Sample.client
              (tab_opening "" true
                 ++ [Log (st_warning "Please enter a question first.") tt])%list
              (inr tt) eq_refl eq_refl eq_refl)
    as (_ & _ & _ & Hreq & _).
  split; [exact Hreq | reflexivity].
Defined.

(** C10: the guard of the handler rejects exactly the empty string; a
    question made of whitespace only, such as " ", passes it, and the whole
    comparison runs: both adapters are called with the prompt built from
    that question, and no warning is shown. *)
Theorem whitespace_question_runs :
  (forall q : string, truthy q = false <-> q = "")
  /\ forall (W : Type) (handle : forall A : Type, Event A -> W -> A * W)
       (w w' : W) (client : AzureOpenAI) (q : string) (tr : Trace)
       (res : PyException + unit),
       all_whitespace q = true -> q <> "" ->
       run handle (try_models_tab client) w = (tr, w', res) ->
       hd_error (text_inputs tr) = Some q ->
       hd_error (button_answers tr) = Some true ->
       truthy q = true
       /\ res = inr tt
       /\ requests tr
            = [CloudRequest client (gpt4_args (create_prompt q));
               LocalRequest (tinyllama_args (create_prompt q))]
       /\ warnings tr = [].
Proof.
  split; [exact truthy_false_iff|].
  intros W handle w w' client q tr res _ Hne Hrun Hq Hb.
  split.
  { destruct q; [contradiction | reflexivity]. }
  destruct (run_try_models_tab W handle client w)
    as (q0 & pressed & w4 & _ & Htab).
  rewrite Htab in Hrun. clear Htab.
  destruct pressed.
  - destruct (run handle (submit_handler client q0) w4)
      as [[tr0 w0] res0] eqn:Hsub.
    injection Hrun as <- <- <-.
    simpl in Hq. injection Hq as ->.
    destruct (run_submit_handler W handle client q w4 Hne)
      as (w1 & tr_c & w2 & cloud & w3 & tr_l & w5 & local & w6
          & Hrun' & _ & _ & _ & _ & _
          & (Hcr & _ & Hcw) & (Hlr & _ & Hlw)).
    rewrite Hrun' in Hsub. injection Hsub as <- <- <-.
    split; [reflexivity|]. split.
    + simpl. rewrite requests_app, Hcr. simpl.
      rewrite requests_app, Hlr. reflexivity.
    + simpl. rewrite warnings_app, Hcw. simpl.
      rewrite warnings_app, Hlw. reflexivity.
  - injection Hrun as <- <- <-. simpl in Hb. discriminate.
Qed.

Lemma whitespace_question_runs_witness :
  requests (fst (fst
    (run (Sample.handle Sample.cloud_ok Sample.local_ok " " true)
         (try_models_tab Sample.client) Sample.clock)))
  = [CloudRequest Sample.client (gpt4_args (create_prompt " "));
     LocalRequest (tinyllama_args (create_prompt " "))].
Proof.
  destruct (run (Sample.handle Sample.cloud_ok Sample.local_ok " " true)
              (try_models_tab Sample.client) Sample.clock)
    as [[tr w'] res] eqn:Hrun.
  refine (proj1 (proj2 (proj2
    (proj2 whitespace_question_runs (list float)
       (Sample.handle Sample.cloud_ok Sample.local_ok " " true)
       Sample.clock w' Sample.client " " tr res eq_refl _ Hrun _ _)))).
  - discriminate.
  - vm_compute in Hrun. injection Hrun as <- _ _. reflexivity.
  - vm_compute in Hrun. injection Hrun as <- _ _. reflexivity.
Defined.

(** C2, as stated, fails: the first row of the overall table has
    GPT4 = 0.833, TinyLlama = 0.317 and Difference = 0.517, while
    0.833 - 0.317 = 0.516. *)
Lemma overall_correctness_row_inconsistent :
  Tables.row_named Tables.overall_metrics "Correctness"
    = Some (Tables.mkRow "Correctness" 0.833 0.317 0.517)
  /\ In Tables.overall_metrics Tables.static_tables
  /\ Tables.difference_consistent
       (Tables.mkRow "Correctness" 0.833 0.317 0.517) = false
  /\ Tables.table_consistent Tables.overall_metrics = false.
Proof.
  split; [reflexivity|].
  split; [| split; vm_compute; reflexivity].
  unfold Tables.static_tables. apply in_or_app. right. left. reflexivity.
Qed.

(** C2 (amended): in each of the four subject tables every row has
    Difference = GPT4 - TinyLlama within 1e-6, and every table has the seven
    metric rows; in the overall table the rows Mathematical Reasoning,
    Coherence, Time Efficiency and Final Score satisfy the same equation,
    and the rows Correctness, Solution Completeness and Explanation Quality
    deviate from it by 0.001. *)
Theorem static_tables_difference :
  (forall df, In df Tables.subject_tables ->
     Tables.table_consistent df = true)
  /\ (forall df, In df Tables.static_tables ->
        map Tables.row_metric (Tables.rows df) = Tables.metric_names)
  /\ map Tables.difference_consistent (Tables.rows Tables.overall_metrics)
       = [false; true; false; false; true; true; true]
  /\ map Tables.off_by_one_thousandth (Tables.rows Tables.overall_metrics)
       = [true; false; true; true; false; false; false].
Proof.
  split; [|split; [|split]].
  - intros df H. simpl in H.
    repeat (destruct H as [<- | H]; [vm_compute; reflexivity|]).
    contradiction.
  - intros df H. simpl in H.
    repeat (destruct H as [<- | H]; [reflexivity|]).
    contradiction.
  - vm_compute. reflexivity.
  - vm_compute. reflexivity.
Qed.

Lemma static_tables_difference_witness :
  Tables.table_consistent Tables.college_math_data = true.
Proof.
  apply (proj1 static_tables_difference).
  simpl. right. left. reflexivity.
Defined.

(* ===================================================================== *)
(** ** Further facts about running the adapters and the tab *)
(* ===================================================================== *)

Section AdapterFacts.

Variable W : Type.
Variable handle : forall A : Type, Event A -> W -> A * W.

Lemma cm_events_app (tr1 tr2 : Trace) :
  cm_events (tr1 ++ tr2)%list = (cm_events tr1 ++ cm_events tr2)%list.
Proof.
  induction tr1 as [| [T ev a] tr1 IH]; simpl; [reflexivity|].
  destruct ev; simpl; rewrite IH; reflexivity.
Qed.

Lemma clock_reads_app (tr1 tr2 : Trace) :
  clock_reads (tr1 ++ tr2)%list = (clock_reads tr1 ++ clock_reads tr2)%list.
Proof.
  induction tr1 as [| [T ev a] tr1 IH]; simpl; [reflexivity|].
  destruct ev; simpl; rewrite IH; reflexivity.
Qed.

Lemma clock_or_request_no_cm (tr : Trace) :
  forallb clock_or_request tr = true -> cm_events tr = [].
Proof.
  induction tr as [| [T ev a] tr IH]; simpl; [reflexivity|].
  intros H. apply andb_true_iff in H. destruct H as [Hev Htr].
  destruct ev; simpl in Hev; try discriminate; exact (IH Htr).
Qed.

Lemma gpt4_trace_clock_or_request client prompt (w : W) :
  forallb clock_or_request
    (fst (fst (run handle (get_gpt4_response client prompt) w))) = true.
Proof.
  unfold get_gpt4_response. simpl.
  destruct (handle _ time_time w) as [t0 w1].
  destruct (handle _ (chat_completions_create client _) w1)
    as [[e | [[| c cs]]] w2]; simpl; try reflexivity.
  destruct (handle _ time_time w2) as [t1 w3]. reflexivity.
Qed.

Lemma tinyllama_trace_clock_or_request prompt (w : W) :
  forallb clock_or_request
    (fst (fst (run handle (get_tinyllama_response prompt) w))) = true.
Proof.
  unfold get_tinyllama_response. simpl.
  destruct (handle _ time_time w) as [t0 w1].
  destruct (handle _ (ollama_generate _) w1) as [[e | d] w2]; simpl;
    try reflexivity.
  unfold dict_getitem. destruct (dict_get d "response"); simpl;
    try reflexivity.
  destruct (handle _ time_time w2) as [t1 w3]. reflexivity.
Qed.



End AdapterFacts.

Lemma append_inv_head (a b c : string) : a ++ b = a ++ c -> b = c.
Proof.
  induction a as [| x a IH]; simpl; intros H; [exact H|].
  injection H as H. exact (IH H).
Qed.

Lemma append_inv_tail (a b t : string) : a ++ t = b ++ t -> a = b.
Proof.
  revert b. induction a as [| x a IH]; intros [| y b] H.
  - reflexivity.
  - apply (f_equal String.length) in H. simpl in H.
    rewrite length_append in H. lia.
  - apply (f_equal String.length) in H. simpl in H.
    rewrite length_append in H. lia.
  - simpl in H. injection H as -> H. rewrite (IH b H). reflexivity.
Qed.

Lemma length_but_last {A : Type} (l : list A) :
  List.length (Charts.but_last l) = List.length l - 1.
Proof.
  unfold Charts.but_last.
  induction l as [| x [| y l] IH]; try reflexivity.
  change (removelast (x :: y :: l)) with (x :: removelast (y :: l)).
  simpl List.length in *. rewrite IH. lia.
Qed.

(* ===================================================================== *)
(** ** Further properties of the script *)
(* ===================================================================== *)

(** X1: when the cloud endpoint answers with a completion that has at
    least one choice, [get_gpt4_response] returns the content of the first
    choice ([None] when it has none) and, as elapsed time, the float
    difference of the clock reading taken after the call and the one taken
    before it; the other choices are ignored. *)
Theorem cloud_adapter_success (W : Type)
    (handle : forall A : Type, Event A -> W -> A * W)
    (w w1 w2 w3 : W) (t0 t1 : float) (client : AzureOpenAI)
    (prompt : string) (response : ChatCompletion) (first : Choice)
    (others : list Choice) :
  handle float time_time w = (t0, w1) ->
  handle _ (chat_completions_create client (gpt4_args prompt)) w1
    = (inr response, w2) ->
  choices response = first :: others ->
  handle float time_time w2 = (t1, w3) ->
  run handle (get_gpt4_response client prompt) w
    = ([Log time_time t0;
        Log (chat_completions_create client (gpt4_args prompt))
            (inr response);
        Log time_time t1],
       w3,
       inr (of_optional_str (content (message first)),
            VFloat (t1 - t0)%float)).
Proof.
  intros Ht0 Hresp Hch Ht1. unfold get_gpt4_response. simpl. rewrite Ht0.
  unfold gpt4_args in Hresp. rewrite Hresp. simpl.
  rewrite Hch. simpl. rewrite Ht1. reflexivity.
Qed.

Lemma cloud_adapter_success_witness :
  run (Sample.handle Sample.cloud_ok Sample.local_ok "" false)
      (get_gpt4_response Sample.client "p") Sample.clock
  = ([Log time_time 100.0%float;
      Log (chat_completions_create Sample.client (gpt4_args "p"))
          Sample.cloud_ok;
      Log time_time 100.8%float],
     [101.0; 103.5]%float,
     inr (VStr "4", VFloat (100.8 - 100.0)%float)).
Proof.
  exact (cloud_adapter_success (list float)
           (Sample.handle Sample.cloud_ok Sample.local_ok "" false)
           Sample.clock (tl Sample.clock) (tl Sample.clock)
           [101.0; 103.5]%float 100.0%float 100.8%float Sample.client "p"
           (mkChatCompletion [mkChoice (mkMessage (Some "4"))])
           (mkChoice (mkMessage (Some "4"))) []
           eq_refl eq_refl eq_refl eq_refl).
Defined.

(** X2: when the local endpoint answers with a mapping that has the key
    'response', [get_tinyllama_response] returns the value stored under
    that key and the float difference of the clock readings taken after
    and before the call. *)
Theorem local_adapter_success (W : Type)
    (handle : forall A : Type, Event A -> W -> A * W)
    (w w1 w2 w3 : W) (t0 t1 : float) (prompt : string)
    (response : GenerateResponse) (text : pyval) :
  handle float time_time w = (t0, w1) ->
  handle _ (ollama_generate (tinyllama_args prompt)) w1
    = (inr response, w2) ->
  dict_get response "response" = Some text ->
  handle float time_time w2 = (t1, w3) ->
  run handle (get_tinyllama_response prompt) w
    = ([Log time_time t0;
        Log (ollama_generate (tinyllama_args prompt)) (inr response);
        Log time_time t1],
       w3, inr (text, VFloat (t1 - t0)%float)).
Proof.
  intros Ht0 Hresp Hkey Ht1. unfold get_tinyllama_response. simpl.
  rewrite Ht0. unfold tinyllama_args in Hresp. rewrite Hresp. simpl.
  unfold dict_getitem. rewrite Hkey. simpl. rewrite Ht1. reflexivity.
Qed.

Lemma local_adapter_success_witness :
  run (Sample.handle Sample.cloud_ok Sample.local_ok "" false)
      (get_tinyllama_response "p") Sample.clock
  = ([Log time_time 100.0%float;
      Log (ollama_generate (tinyllama_args "p")) Sample.local_ok;
      Log time_time 100.8%float],
     [101.0; 103.5]%float,
     inr (VStr "2+2 is 4", VFloat (100.8 - 100.0)%float)).
Proof.
  exact (local_adapter_success (list float)
           (Sample.handle Sample.cloud_ok Sample.local_ok "" false)
           Sample.clock (tl Sample.clock) (tl Sample.clock)
           [101.0; 103.5]%float 100.0%float 100.8%float "p"
           [("model", VStr "tinyllama"); ("response", VStr "2+2 is 4");
            ("done", VBool true)]
           (VStr "2+2 is 4") eq_refl eq_refl eq_refl eq_refl).
Defined.

(** X3: a malformed answer is handled like a raised exception.  A
    completion without choices makes [get_gpt4_response] return
    ("Error: list index out of range", 0), and a mapping without the key
    'response' makes [get_tinyllama_response] return ("Error: 'response'",
    0); in both cases the clock is not read a second time. *)
Theorem malformed_response_contained (W : Type)
    (handle : forall A : Type, Event A -> W -> A * W)
    (w w1 : W) (t0 : float) (client : AzureOpenAI) (prompt : string) :
  handle float time_time w = (t0, w1) ->
  (forall response w2,
     handle _ (chat_completions_create client (gpt4_args prompt)) w1
       = (inr response, w2) ->
     choices response = [] ->
     run handle (get_gpt4_response client prompt) w
       = ([Log time_time t0;
           Log (chat_completions_create client (gpt4_args prompt))
               (inr response)],
          w2, inr (VStr "Error: list index out of range", VInt 0)))
  /\ (forall response w2,
        handle _ (ollama_generate (tinyllama_args prompt)) w1
          = (inr response, w2) ->
        dict_get response "response" = None ->
        run handle (get_tinyllama_response prompt) w
          = ([Log time_time t0;
              Log (ollama_generate (tinyllama_args prompt)) (inr response)],
             w2, inr (VStr "Error: 'response'", VInt 0))).
Proof.
  intros Ht0. split; intros response w2 Hresp Hbad.
  - unfold get_gpt4_response. simpl. rewrite Ht0.
    unfold gpt4_args in Hresp. rewrite Hresp. simpl.
    rewrite Hbad. reflexivity.
  - unfold get_tinyllama_response. simpl. rewrite Ht0.
    unfold tinyllama_args in Hresp. rewrite Hresp. simpl.
    unfold dict_getitem. rewrite Hbad. reflexivity.
Qed.

Lemma malformed_response_contained_witness :
  run (Sample.handle (inr (mkChatCompletion [])) (inr []) "" false)
      (get_gpt4_response Sample.client "p") Sample.clock
    = ([Log time_time 100.0%float;
        Log (chat_completions_create Sample.client (gpt4_args "p"))
            (inr (mkChatCompletion []))],
       tl Sample.clock,
       inr (VStr "Error: list index out of range", VInt 0))
  /\ run (Sample.handle (inr (mkChatCompletion [])) (inr []) "" false)
         (get_tinyllama_response "p") Sample.clock
     = ([Log time_time 100.0%float;
         Log (ollama_generate (tinyllama_args "p")) (inr [])],
        tl Sample.clock, inr (VStr "Error: 'response'", VInt 0)).
Proof.
  destruct (malformed_response_contained (list float)
              (Sample.handle (inr (mkChatCompletion [])) (inr []) "" false)
              Sample.clock (tl Sample.clock) 100.0%float Sample.client "p"
              eq_refl) as [Hc Hl].
  split.
  - exact (Hc _ _ eq_refl eq_refl).
  - exact (Hl _ _ eq_refl eq_refl).
Defined.

(** X4: whatever the environment answers, one run of either adapter
    performs at most three external calls: it reads the clock, sends one
    request and reads the clock at most once more.  It never retries the
    request and never calls the user interface. *)
Theorem adapter_calls_bounded (W : Type)
    (handle : forall A : Type, Event A -> W -> A * W)
    (w : W) (client : AzureOpenAI) (prompt : string) :
  (let tr := fst (fst (run handle (get_gpt4_response client prompt) w)) in
   forallb clock_or_request tr = true
   /\ List.length (requests tr) = 1
   /\ 1 <= List.length (clock_reads tr) <= 2
   /\ List.length tr = 1 + List.length (clock_reads tr))
  /\ (let tr := fst (fst (run handle (get_tinyllama_response prompt) w)) in
      forallb clock_or_request tr = true
      /\ List.length (requests tr) = 1
      /\ 1 <= List.length (clock_reads tr) <= 2
      /\ List.length tr = 1 + List.length (clock_reads tr)).
Proof.
  split.
  - unfold get_gpt4_response. simpl.
    destruct (handle _ time_time w) as [t0 w1].
    destruct (handle _ (chat_completions_create client _) w1)
      as [[e | [[| c cs]]] w2]; simpl.
    + repeat split; lia.
    + repeat split; lia.
    + destruct (handle _ time_time w2) as [t1 w3]. simpl.
      repeat split; lia.
  - unfold get_tinyllama_response. simpl.
    destruct (handle _ time_time w) as [t0 w1].
    destruct (handle _ (ollama_generate _) w1) as [[e | d] w2]; simpl.
    + repeat split; lia.
    + unfold dict_getitem. destruct (dict_get d "response"); simpl.
      * destruct (handle _ time_time w2) as [t1 w3]. simpl.
        repeat split; lia.
      * repeat split; lia.
Qed.

(** X5: when the button is not pressed the tab does nothing beyond its
    four opening calls, whatever was typed in the text area: no request, no
    warning, no clock reading, and it ends normally. *)
Theorem button_not_pressed_idle (W : Type)
    (handle : forall A : Type, Event A -> W -> A * W)
    (w w' : W) (client : AzureOpenAI) (tr : Trace)
    (res : PyException + unit) :
  run handle (try_models_tab client) w = (tr, w', res) ->
  hd_error (button_answers tr) = Some false ->
  exists q,
    tr = tab_opening q false
    /\ res = inr tt
    /\ requests tr = []
    /\ warnings tr = []
    /\ clock_reads tr = [].
Proof.
  intros Hrun Hb.
  destruct (run_try_models_tab W handle client w)
    as (q & pressed & w4 & _ & Htab).
  rewrite Htab in Hrun. clear Htab.
  destruct pressed.
  - destruct (run handle (submit_handler client q) w4) as [[tr0 w0] res0].
    injection Hrun as <- <- <-. simpl in Hb. discriminate.
  - injection Hrun as <- <- <-. exists q.
    repeat split.
Qed.

Lemma button_not_pressed_idle_witness :
  exists q,
    fst (fst (run (Sample.handle Sample.cloud_ok Sample.local_ok
                     "What is 2+2?" false)
                  (try_models_tab Sample.client) Sample.clock))
      = tab_opening q false.
Proof.
  destruct (button_not_pressed_idle (list float)
              (Sample.handle Sample.cloud_ok Sample.local_ok
                 "What is 2+2?" false)
              Sample.clock Sample.clock Sample.client
              (tab_opening "What is 2+2?" false) (inr tt)
              eq_refl eq_refl) as (q & Htr & _).
  exists q. exact Htr.
Defined.

(** X6: in every environment the tab ends without an exception, and it
    sends either no request at all or exactly the cloud request followed by
    the local request, both built from one non-empty question; it never
    sends one of the two alone. *)
Theorem tab_never_raises (W : Type)
    (handle : forall A : Type, Event A -> W -> A * W)
    (w : W) (client : AzureOpenAI) :
  exists tr w',
    run handle (try_models_tab client) w = (tr, w', inr tt)
    /\ (requests tr = []
        \/ exists q, q <> ""
             /\ requests tr
                = [CloudRequest client (gpt4_args (create_prompt q));
                   LocalRequest (tinyllama_args (create_prompt q))]).
Proof.
  destruct (run_try_models_tab W handle client w)
    as (q & pressed & w4 & _ & Htab).
  rewrite Htab. clear Htab.
  destruct pressed; [| do 2 eexists; split; [reflexivity | left; reflexivity]].
  destruct q as [| c q'].
  - simpl.
    destruct (handle unit (st_warning "Please enter a question first.") w4)
      as [[] w5].
    do 2 eexists. split; [reflexivity | left; reflexivity].
  - assert (Hne : String c q' <> "") by discriminate.
    destruct (run_submit_handler W handle client (String c q') w4 Hne)
      as (w1 & tr_c & w2 & cloud & w3 & tr_l & w5 & local & w6
          & Hrun & _ & _ & _ & _ & _ & (Hcr & _) & (Hlr & _)).
    rewrite Hrun.
    do 2 eexists. split; [reflexivity|].
    right. exists (String c q'). split; [exact Hne|].
    rewrite !requests_app, Hcr, Hlr. reflexivity.
Qed.

(** X7: for a submitted non-empty question the [with] blocks are entered
    and left in a properly nested order in every environment, whatever the
    endpoints answer: the spinner encloses the two columns, the first
    column is left before the second is entered, and the spinner is left
    last. *)
Theorem context_managers_nested (W : Type)
    (handle : forall A : Type, Event A -> W -> A * W)
    (w : W) (client : AzureOpenAI) (q : string) :
  q <> "" ->
  cm_events (fst (fst (run handle (submit_handler client q) w)))
    = [(true, Spinner "Getting responses from both models...");
       (true, Column 1); (false, Column 1);
       (true, Column 2); (false, Column 2);
       (false, Spinner "Getting responses from both models...")].
Proof.
  intros Hq.
  destruct (run_submit_handler W handle client q w Hq)
    as (w1 & tr_c & w2 & cloud & w3 & tr_l & w4 & local & w5
        & Hrun & _ & Hc & _ & Hl & _).
  rewrite Hrun. cbn [fst].
  pose proof (gpt4_trace_clock_or_request W handle client
                (create_prompt q) w1) as Hsc.
  pose proof (tinyllama_trace_clock_or_request W handle
                (create_prompt q) w3) as Hsl.
  rewrite Hc in Hsc. rewrite Hl in Hsl. cbn [fst] in Hsc, Hsl.
  rewrite !cm_events_app.
  rewrite (clock_or_request_no_cm _ Hsc), (clock_or_request_no_cm _ Hsl).
  reflexivity.
Qed.

Lemma context_managers_nested_witness :
  List.length
    (cm_events (fst (fst
       (run (Sample.handle Sample.cloud_down Sample.local_down "x" true)
            (submit_handler Sample.client "x") Sample.clock)))) = 6.
Proof.
  rewrite (context_managers_nested (list float)
             (Sample.handle Sample.cloud_down Sample.local_down "x" true)
             Sample.clock Sample.client "x").
  - reflexivity.
  - discriminate.
Defined.





(** X10: [create_prompt] is injective: two questions with the same prompt
    are the same question, so the question can be recovered from the
    prompt. *)
Theorem create_prompt_injective (q1 q2 : string) :
  create_prompt q1 = create_prompt q2 -> q1 = q2.
Proof.
  unfold create_prompt. intros H.
  apply append_inv_head in H.
  apply append_inv_tail in H. exact H.
Qed.

Lemma create_prompt_injective_witness : "2+2" = "2+2".
Proof.
  exact (create_prompt_injective "2+2" "2+2" eq_refl).
Defined.

(** X11: for every frame whose columns have equal lengths,
    [create_radar_chart] plots two traces, 'GPT-4' and 'TinyLlama', over
    the same categories: all metrics but the last one.  Each trace has as
    many radial values as categories, one fewer than the frame has rows
    (none for an empty frame), whereas [create_bar_chart] keeps every
    row. *)
Theorem radar_chart_drops_last_row (data : Tables.DataFrame)
    (title : string) :
  List.length (Tables.GPT4 data) = List.length (Tables.Metric data) ->
  List.length (Tables.TinyLlama data) = List.length (Tables.Metric data) ->
  exists g t,
    Charts.fig_data (Charts.create_radar_chart data title)
      = [Charts.TraceScatterpolar g; Charts.TraceScatterpolar t]
    /\ Charts.sp_name g = "GPT-4" /\ Charts.sp_name t = "TinyLlama"
    /\ Charts.sp_theta g = Charts.sp_theta t
    /\ List.length (Charts.sp_r g) = List.length (Charts.sp_theta g)
    /\ List.length (Charts.sp_r t) = List.length (Charts.sp_theta t)
    /\ List.length (Charts.sp_theta g)
         = List.length (Tables.Metric data) - 1
    /\ (forall ms m, Tables.Metric data = (ms ++ [m])%list ->
          Charts.sp_theta g = ms)
    /\ Charts.categories (Charts.create_bar_chart data title)
         = [Tables.Metric data; Tables.Metric data].
Proof.
  intros Hg Ht.
  eexists. eexists. split; [reflexivity|]. simpl.
  split; [reflexivity|]. split; [reflexivity|]. split; [reflexivity|].
  rewrite !length_but_last, Hg, Ht.
  split; [reflexivity|]. split; [reflexivity|]. split; [reflexivity|].
  split; [| reflexivity].
  intros ms m ->. unfold Charts.but_last. apply removelast_last.
Qed.

Lemma radar_chart_drops_last_row_witness :
  exists g t,
    Charts.fig_data (Charts.create_radar_chart Tables.overall_metrics "t")
      = [Charts.TraceScatterpolar g; Charts.TraceScatterpolar t]
    /\ List.length (Charts.sp_r g) = 6.
Proof.
  destruct (radar_chart_drops_last_row Tables.overall_metrics "t"
              eq_refl eq_refl)
    as (g & t & Hfig & _ & _ & _ & Hlen & _ & Hsix & _).
  exists g, t. split; [exact Hfig|].
  rewrite Hlen, Hsix. reflexivity.
Defined.

(** X12: for each of the five static tables the radar chart leaves out
    exactly the row "Final Score", which the bar chart shows, and every
    radial value it plots lies within the range [0, 1] that the chart
    fixes for its radial axis. *)
Theorem static_radar_charts_in_range (title : string) :
  Forall
    (fun df =>
       Charts.categories (Charts.create_radar_chart df title)
         = [["Correctness"; "Mathematical Reasoning";
             "Solution Completeness"; "Explanation Quality"; "Coherence";
             "Time Efficiency"];
            ["Correctness"; "Mathematical Reasoning";
             "Solution Completeness"; "Explanation Quality"; "Coherence";
             "Time Efficiency"]]
       /\ Charts.categories (Charts.create_bar_chart df title)
            = [Tables.metric_names; Tables.metric_names]
       /\ last Tables.metric_names "" = "Final Score"
       /\ Charts.radial_range (Charts.create_radar_chart df title)
            = Some (VList [VInt 0; VInt 1])
       /\ forallb Charts.in_unit_interval
            (Charts.radial_values (Charts.create_radar_chart df title))
            = true)
    Tables.static_tables.
Proof.
  unfold Tables.static_tables, Tables.subject_tables. simpl app.
  repeat (apply Forall_cons;
          [ split; [reflexivity|]; split; [reflexivity|];
            split; [reflexivity|]; split; [reflexivity|];
            vm_compute; reflexivity |]).
  apply Forall_nil.
Qed.

(** X13: the summary of the first tab agrees with the detailed tables of
    the second: for each subject, in the order of the sub-tabs, the GPT4
    and TinyLlama scores of [subjects_summary] are the "Final Score" row,
    the last one, of the table shown under that subject. *)
Theorem summary_matches_final_scores :
  combine (Charts.Subject Charts.subjects_summary)
          (combine (Charts.SummaryGPT4 Charts.subjects_summary)
                   (Charts.SummaryTinyLlama Charts.subjects_summary))
    = map (fun tab =>
             (fst tab,
              (last (Tables.GPT4 (snd tab)) 0%float,
               last (Tables.TinyLlama (snd tab)) 0%float)))
          Charts.subject_tabs
  /\ map snd Charts.subject_tabs = Tables.subject_tables
  /\ Forall (fun tab => last (Tables.Metric (snd tab)) "" = "Final Score")
            Charts.subject_tabs.
Proof.
  split; [reflexivity|]. split; [reflexivity|].
  repeat (apply Forall_cons; [reflexivity|]). apply Forall_nil.
Qed.
